(** * The replica-set controller of the MongoDB Kubernetes operator

    A shallow embedding of [pkg/controller/mongodb/mongodb_controller.go]:
    the domain namer [getDomain], the automation-config builder, the
    config-map builder, the stateful-set builder and the [Reconcile]
    control loop, followed by the properties the specification states
    about them. *)

From Stdlib Require Import ZArith Ascii.
From stdpp Require Import base option list strings gmap.

Local Open Scope string_scope.

(** ** Constants of the controller *)

Definition automationConfigKey : string := "automation-config".
Definition agentName : string := "mongodb-agent".
Definition agentImageEnvVariable : string := "AGENT_IMAGE".

(** ** Go errors

    A Go [error] is an opaque value with an [Error()] message.  The
    controller inspects an error in one way only, [errors.IsNotFound]; the
    kind tag carries that and the error kinds the specification names. *)

Inductive ErrorKind : Type :=
  | NotFoundError
  | ReadError
  | SerializationError
  | BuildError
  | UpsertError.

Record error : Type := mkError { errKind : ErrorKind; Error : string }.

Module errors.
Definition IsNotFound (err : error) : bool :=
  match errKind err with
  | NotFoundError => true
  | _ => false
  end.
End errors.

(** ** The MongoDB resource (package [mdbv1]) *)

Module mdbv1.

(** Modelled from the spec: the declaration of the [MongoDB] type is not
    part of the controller file.  The controller reads [Name],
    [Namespace], [Spec.Members] and [Spec.Version]; the specification's
    DesiredState adds an optional service name and an optional
    cluster-domain override (empty when absent).  [Members] is a Go
    [int]; the controller passes it on and computes nothing with it. *)
Record MongoDBSpec : Type := mkMongoDBSpec {
  Members : Z;
  Version : string;
  SpecServiceName : string;
  SpecClusterDomain : string
}.

Record MongoDB : Type := mkMongoDB {
  Name : string;
  Namespace : string;
  Spec : MongoDBSpec
}.

(** Modelled from the spec: method [ServiceName] of [MongoDB].  The
    service name of the desired state, defaulted to the cluster name
    followed by [-service] when absent. *)
Definition ServiceName (m : MongoDB) : string :=
  if String.eqb (SpecServiceName (Spec m)) "" then Name m ++ "-service"
  else SpecServiceName (Spec m).

(** Modelled from the spec: method [ConfigMapName] of [MongoDB].  The
    config artifact is named after the cluster by a fixed convention,
    the cluster name followed by [-config]. *)
Definition ConfigMapName (m : MongoDB) : string := Name m ++ "-config".

End mdbv1.

(** Left-to-right application, for chains of builder calls. *)
Notation "b |> f" := (f b) (at level 45, left associativity, only parsing).

(** ** Package [automationconfig] *)

Module automationconfig.

(** Modelled from the spec: the topology kind of an automation document;
    this controller only ever asks for a replica set. *)
Definition Topology : Type := string.
Definition ReplicaSetTopology : Topology := "replica-set".

(** Modelled from the spec: the automation document, with its topology
    kind, cluster name, fully-qualified domain, member count, database
    version and config-generation counter. *)
Record AutomationConfig : Type := mkAutomationConfig {
  acTopology : Topology;
  acName : string;
  acDomain : string;
  acMembers : Z;
  acMongoDBVersion : string;
  acVersion : Z
}.

(** Modelled from the spec: the builder of automation documents.  Each
    setter stores its argument and [Build] copies the stored fields into
    the document. *)
Record Builder : Type := mkBuilder {
  topology : Topology;
  name : string;
  domain : string;
  members : Z;
  mongodbVersion : string;
  version : Z
}.

Definition NewBuilder : Builder := mkBuilder "" "" "" 0 "" 0.

Definition SetTopology (t : Topology) (b : Builder) : Builder :=
  mkBuilder t (name b) (domain b) (members b) (mongodbVersion b) (version b).
Definition SetName (n : string) (b : Builder) : Builder :=
  mkBuilder (topology b) n (domain b) (members b) (mongodbVersion b) (version b).
Definition SetDomain (d : string) (b : Builder) : Builder :=
  mkBuilder (topology b) (name b) d (members b) (mongodbVersion b) (version b).
Definition SetMembers (m : Z) (b : Builder) : Builder :=
  mkBuilder (topology b) (name b) (domain b) m (mongodbVersion b) (version b).
Definition SetMongoDBVersion (v : string) (b : Builder) : Builder :=
  mkBuilder (topology b) (name b) (domain b) (members b) v (version b).
Definition SetAutomationConfigVersion (v : Z) (b : Builder) : Builder :=
  mkBuilder (topology b) (name b) (domain b) (members b) (mongodbVersion b) v.

Definition Build (b : Builder) : AutomationConfig :=
  mkAutomationConfig (topology b) (name b) (domain b) (members b)
    (mongodbVersion b) (version b).

End automationconfig.

(** ** Kubernetes objects (packages [metav1], [corev1], [appsv1])

    The fields the controller and its builders set; a Go map from strings
    to strings is a finite map. *)

Module metav1.

Record ObjectMeta : Type := mkObjectMeta {
  Name : string;
  Namespace : string;
  Labels : gmap string string
}.

Record LabelSelector : Type := mkLabelSelector {
  MatchLabels : gmap string string
}.

End metav1.

Module corev1.

Record ConfigMap : Type := mkConfigMap {
  cmObjectMeta : metav1.ObjectMeta;
  Data : gmap string string
}.

(** Resource lists map a resource name to a quantity. *)
Record ResourceRequirements : Type := mkResourceRequirements {
  Limits : gmap string string;
  Requests : gmap string string
}.

Record Container : Type := mkContainer {
  Name : string;
  Image : string;
  Resources : ResourceRequirements;
  Command : list string
}.

Record PodSpec : Type := mkPodSpec { Containers : list Container }.

Record PodTemplateSpec : Type := mkPodTemplateSpec {
  ptObjectMeta : metav1.ObjectMeta;
  ptSpec : PodSpec
}.

End corev1.

Module appsv1.

Record StatefulSetSpec : Type := mkStatefulSetSpec {
  Replicas : Z;
  Selector : metav1.LabelSelector;
  Template : corev1.PodTemplateSpec
}.

Record StatefulSet : Type := mkStatefulSet {
  stsObjectMeta : metav1.ObjectMeta;
  stsSpec : StatefulSetSpec
}.

End appsv1.

(** ** Package [configmap] *)

Module configmap.

(** Modelled from the spec: the config-map builder.  The artifact gets
    the name and namespace that were set and one entry per [SetField]. *)
Record builder : Type := mkBuilder {
  data : gmap string string;
  name : string;
  namespace : string
}.

Definition Builder : builder := mkBuilder ∅ "" "".

Definition SetName (n : string) (b : builder) : builder :=
  mkBuilder (data b) n (namespace b).
Definition SetNamespace (ns : string) (b : builder) : builder :=
  mkBuilder (data b) (name b) ns.
Definition SetField (k v : string) (b : builder) : builder :=
  mkBuilder (<[k := v]> (data b)) (name b) (namespace b).

Definition Build (b : builder) : corev1.ConfigMap :=
  corev1.mkConfigMap (metav1.mkObjectMeta (name b) (namespace b) ∅) (data b).

End configmap.

(** ** Package [statefulset] *)

Module statefulset.

(** Modelled from the spec: the stateful-set builder.  The setters store
    their arguments; [Build] rejects an invalid replica count (the
    desired state's invariant is a member count of at least one) with a
    [BuildError] and otherwise assembles the descriptor from the stored
    fields. *)
Record Builder : Type := mkBuilder {
  name : string;
  namespace : string;
  replicas : Z;
  labels : gmap string string;
  matchLabels : gmap string string;
  podTemplateSpec : corev1.PodTemplateSpec
}.

Definition NewBuilder : Builder :=
  mkBuilder "" "" 0 ∅ ∅
    (corev1.mkPodTemplateSpec (metav1.mkObjectMeta "" "" ∅) (corev1.mkPodSpec [])).

Definition SetPodTemplateSpec (t : corev1.PodTemplateSpec) (b : Builder) : Builder :=
  mkBuilder (name b) (namespace b) (replicas b) (labels b) (matchLabels b) t.
Definition SetNamespace (ns : string) (b : Builder) : Builder :=
  mkBuilder (name b) ns (replicas b) (labels b) (matchLabels b) (podTemplateSpec b).
Definition SetName (n : string) (b : Builder) : Builder :=
  mkBuilder n (namespace b) (replicas b) (labels b) (matchLabels b) (podTemplateSpec b).
Definition SetReplicas (r : Z) (b : Builder) : Builder :=
  mkBuilder (name b) (namespace b) r (labels b) (matchLabels b) (podTemplateSpec b).
Definition SetLabels (l : gmap string string) (b : Builder) : Builder :=
  mkBuilder (name b) (namespace b) (replicas b) l (matchLabels b) (podTemplateSpec b).
Definition SetMatchLabels (l : gmap string string) (b : Builder) : Builder :=
  mkBuilder (name b) (namespace b) (replicas b) (labels b) l (podTemplateSpec b).

Definition invalidReplicas : error :=
  mkError BuildError "replicas must be at least 1".

Definition Build (b : Builder) : appsv1.StatefulSet + error :=
  if (replicas b <? 1)%Z then inr invalidReplicas
  else inl (appsv1.mkStatefulSet
              (metav1.mkObjectMeta (name b) (namespace b) (labels b))
              (appsv1.mkStatefulSetSpec (replicas b)
                 (metav1.mkLabelSelector (matchLabels b))
                 (podTemplateSpec b))).

End statefulset.

(** ** The domain namer *)

(** [fmt.Sprintf("%s.%s.svc.%s", service, namespace, clusterName)] on
    strings is the concatenation of its arguments and the literal parts
    of the format. *)
Definition getDomain (service namespace clusterName : string) : string :=
  let clusterName :=
    if String.eqb clusterName "" then "cluster.local" else clusterName in
  service ++ "." ++ namespace ++ ".svc." ++ clusterName.

(** ** The automation-config builder *)

Definition buildAutomationConfig (mdb : mdbv1.MongoDB)
  : automationconfig.AutomationConfig :=
  let domain :=
    getDomain (mdbv1.ServiceName mdb) (mdbv1.Namespace mdb) (mdbv1.Name mdb) in
  automationconfig.NewBuilder
    |> automationconfig.SetTopology automationconfig.ReplicaSetTopology
    |> automationconfig.SetName (mdbv1.Name mdb)
    |> automationconfig.SetDomain domain
    |> automationconfig.SetMembers (mdbv1.Members (mdbv1.Spec mdb))
    |> automationconfig.SetMongoDBVersion (mdbv1.Version (mdbv1.Spec mdb))
    |> automationconfig.SetAutomationConfigVersion 1
    |> automationconfig.Build.

(** ** The controller's surroundings: requests, results, the client *)

Module types.

Record NamespacedName : Type := mkNamespacedName {
  Namespace : string;
  Name : string
}.

End types.

Module reconcile.

Record Request : Type := mkRequest { NamespacedName : types.NamespacedName }.

Record Result : Type := mkResult { Requeue : bool; RequeueAfter : Z }.

(** [reconcile.Result{}] *)
Definition ResultZero : Result := mkResult false 0.

(** The note above [Reconcile]: the request is processed again if the
    returned error is non-nil or [Result.Requeue] is true. *)
Definition willRequeue (out : Result * option error) : bool :=
  match snd out with
  | Some _ => true
  | None => Requeue (fst out)
  end.

End reconcile.

(** The objects the controller hands to [CreateOrUpdate]. *)
Inductive Object : Type :=
  | ObjConfigMap (cm : corev1.ConfigMap)
  | ObjStatefulSet (sts : appsv1.StatefulSet).

(** The interface [mdbClient.Client], over the state [S] of whatever
    stands behind it.  [Get] yields the resource or an error; either call
    may change the state behind the interface. *)
Class Client (S : Type) : Type := {
  Get : types.NamespacedName → S → (mdbv1.MongoDB + error) * S;
  CreateOrUpdate : Object → S → option error * S
}.

(** ** Effects

    One invocation runs against a world, the state behind the client and
    the process environment, and emits the calls it makes and the lines it
    logs, in order. *)

Inductive Level : Type := InfoLevel | WarnLevel | ErrorLevel.

Inductive Event : Type :=
  | EvLog (lvl : Level) (msg : string)
  | EvGet (key : types.NamespacedName)
  | EvCreateOrUpdate (obj : Object)
  | EvGetenv (key : string).

Record World (S : Type) : Type := mkWorld {
  store : S;
  environ : gmap string string
}.
Arguments mkWorld {S} _ _.
Arguments store {S} _.
Arguments environ {S} _.

Record Run (S A : Type) : Type := mkRun {
  value : A;
  after : World S;
  events : list Event
}.
Arguments mkRun {S A} _ _ _.
Arguments value {S A} _.
Arguments after {S A} _.
Arguments events {S A} _.

Definition M (S A : Type) : Type := World S → Run S A.

Definition ret {S A} (a : A) : M S A := λ w, mkRun a w [].

Definition bind {S A B} (m : M S A) (k : A → M S B) : M S B :=
  λ w,
    let r1 := m w in
    let r2 := k (value r1) (after r1) in
    mkRun (value r2) (after r2) (events r1 ++ events r2).

Notation "x <- m ;; k" := (bind m (λ x, k))
  (at level 100, m at next level, right associativity, only parsing).
Notation "m ;; k" := (bind m (λ _, k))
  (at level 100, right associativity, only parsing).

Definition emit {S} (e : Event) : M S unit := λ w, mkRun tt w [e].

(** The sugared logger.  The logger's fixed context (the request's
    namespaced name) and the key-value pairs after a message are not part
    of the emitted line; [%s] of an error is its [Error()] text. *)
Module log.
Definition Info {S} (msg : string) : M S unit := emit (EvLog InfoLevel msg).
Definition Warnf {S} (prefix : string) (err : error) : M S unit :=
  emit (EvLog WarnLevel (prefix ++ Error err)).
Definition Errorf {S} (prefix : string) (err : error) : M S unit :=
  emit (EvLog ErrorLevel (prefix ++ Error err)).
End log.

(** [os.Getenv]: the value of the variable, empty when it is unset. *)
Module os.
Definition Getenv {S} (key : string) : M S string :=
  λ w, mkRun (default "" (environ w !! key)) w [EvGetenv key].
End os.

Module client.
Definition Get {S} `{Client S} (key : types.NamespacedName)
  : M S (mdbv1.MongoDB + error) :=
  λ w,
    let '(r, s) := Get key (store w) in
    mkRun r (mkWorld s (environ w)) [EvGet key].

Definition CreateOrUpdate {S} `{Client S} (obj : Object)
  : M S (option error) :=
  λ w,
    let '(r, s) := CreateOrUpdate obj (store w) in
    mkRun r (mkWorld s (environ w)) [EvCreateOrUpdate obj].
End client.

(** ** The controller *)

Section Controller.

Context {S : Type} `{Client S}.

(** [json.Marshal] at the automation document: the encoded text, or an
    error when the document cannot be encoded. *)
Variable jsonMarshal : automationconfig.AutomationConfig → string + error.

(** [resourcerequirements.Defaults()]: the fixed default requirements,
    declared outside the controller file. *)
Variable resourceDefaults : corev1.ResourceRequirements.

Definition buildAutomationConfigConfigMap (mdb : mdbv1.MongoDB)
  : corev1.ConfigMap + error :=
  let ac := buildAutomationConfig mdb in
  match jsonMarshal ac with
  | inr err => inr err
  | inl acBytes =>
      inl (configmap.Builder
             |> configmap.SetName (mdbv1.ConfigMapName mdb)
             |> configmap.SetNamespace (mdbv1.Namespace mdb)
             |> configmap.SetField automationConfigKey acBytes
             |> configmap.Build)
  end.

(** [buildStatefulSet] takes a MongoDB resource and converts it into the
    corresponding stateful set. *)
Definition buildStatefulSet (mdb : mdbv1.MongoDB)
  : M S (appsv1.StatefulSet + error) :=
  let labels : gmap string string := {[ "dummy" := "label" ]} in
  image <- os.Getenv agentImageEnvVariable ;;
  let agentContainer :=
    corev1.mkContainer agentName image resourceDefaults
      [ "agent/mongodb-agent";
        "-cluster=/var/lib/automation/config/automation-config.json" ] in
  let podSpecTemplate :=
    corev1.mkPodTemplateSpec
      (metav1.mkObjectMeta "" "" labels)
      (corev1.mkPodSpec [ agentContainer ]) in
  ret (statefulset.NewBuilder
         |> statefulset.SetPodTemplateSpec podSpecTemplate
         |> statefulset.SetNamespace (mdbv1.Namespace mdb)
         |> statefulset.SetName (mdbv1.Name mdb)
         |> statefulset.SetReplicas (mdbv1.Members (mdbv1.Spec mdb))
         |> statefulset.SetLabels labels
         |> statefulset.SetMatchLabels labels
         |> statefulset.Build).

Definition ensureAutomationConfig (mdb : mdbv1.MongoDB)
  : M S (option error) :=
  match buildAutomationConfigConfigMap mdb with
  | inr err => ret (Some err)
  | inl cm =>
      e <- client.CreateOrUpdate (ObjConfigMap cm) ;;
      match e with
      | Some err => ret (Some err)
      | None => ret None
      end
  end.

(** [Reconcile] reads the state of the cluster for a MongoDB object and
    makes changes based on the state read and what is in its spec. *)
Definition Reconcile (request : reconcile.Request)
  : M S (reconcile.Result * option error) :=
  log.Info "Reconciling MongoDB" ;;
  got <- client.Get (reconcile.NamespacedName request) ;;
  match got with
  | inr err =>
      if errors.IsNotFound err then
        ret (reconcile.ResultZero, None)
      else
        log.Errorf "error reconciling MongoDB resource: " err ;;
        ret (reconcile.ResultZero, Some err)
  | inl mdb =>
      e <- ensureAutomationConfig mdb ;;
      match e with
      | Some err =>
          log.Warnf "failed creating config map: " err ;;
          ret (reconcile.ResultZero, Some err)
      | None =>
          built <- buildStatefulSet mdb ;;
          match built with
          | inr err =>
              log.Warnf "error building StatefulSet: " err ;;
              ret (reconcile.ResultZero, None)
          | inl sts =>
              e <- client.CreateOrUpdate (ObjStatefulSet sts) ;;
              match e with
              | Some err =>
                  log.Warnf "error creating/updating StatefulSet: " err ;;
                  ret (reconcile.ResultZero, Some err)
              | None =>
                  log.Info "Successfully finished reconciliation" ;;
                  ret (reconcile.ResultZero, None)
              end
          end
      end
  end.

End Controller.

(** ** Registration with the manager

    [Add], [newReconciler] and [add] run once, when the operator starts.
    They talk to the controller runtime: the manager hands out its client
    and its scheme, [controller.New] registers a controller with the
    manager and [Watch] subscribes it to a kind of resource; either of
    the last two may fail. *)

(** [source.Kind{Type: ...}]: the kind of the resource it points to. *)
Module source.
Record Kind : Type := mkKind { Type' : mdbv1.MongoDB }.
End source.

(** [handler.EnqueueRequestForObject{}], a struct with no fields. *)
Module handler.
Inductive EnqueueRequestForObject : Type := mkEnqueueRequestForObject.
End handler.

(** [mdbv1.MongoDB{}], the resource with every field at its zero value. *)
Definition zeroMongoDB : mdbv1.MongoDB :=
  mdbv1.mkMongoDB "" "" (mdbv1.mkMongoDBSpec 0 "" "" "").

(** [ReplicaSetReconciler] reconciles a MongoDB replica set: it holds the
    client, which reads objects from the cache and writes to the API
    server, and the scheme. *)
Record ReplicaSetReconciler (S Scheme : Type) : Type :=
  mkReplicaSetReconciler {
    client : Client S;
    scheme : Scheme
  }.
Arguments mkReplicaSetReconciler {S Scheme} _ _.
Arguments client {S Scheme} _.
Arguments scheme {S Scheme} _.

Module controller.
Record Options (S Scheme : Type) : Type :=
  mkOptions { Reconciler : ReplicaSetReconciler S Scheme }.
Arguments mkOptions {S Scheme} _.
Arguments Reconciler {S Scheme} _.
End controller.

(** The interface [manager.Manager] with the runtime behind it: the
    manager value is the runtime's state, which [controller.New] and
    [Watch] may change. *)
Class Manager (Mgr KubeClient S Scheme Controller : Type) : Type := {
  GetClient : Mgr → KubeClient;
  GetScheme : Mgr → Scheme;
  NewClient : KubeClient → Client S;
  controllerNew :
    string → Mgr → controller.Options S Scheme → (Controller + error) * Mgr;
  Watch :
    Controller → source.Kind → handler.EnqueueRequestForObject → Mgr →
    option error * Mgr
}.

(** The calls into the runtime, as [add] makes them. *)
Inductive SetupCall (S Scheme Controller : Type) : Type :=
  | CallNew (name : string) (options : controller.Options S Scheme)
  | CallWatch (c : Controller) (src : source.Kind)
      (h : handler.EnqueueRequestForObject).
Arguments CallNew {S Scheme Controller} _ _.
Arguments CallWatch {S Scheme Controller} _ _ _.

Record Setup (Mgr S Scheme Controller : Type) : Type := mkSetup {
  result : option error;
  manager : Mgr;
  calls : list (SetupCall S Scheme Controller)
}.
Arguments mkSetup {Mgr S Scheme Controller} _ _ _.
Arguments result {Mgr S Scheme Controller} _.
Arguments manager {Mgr S Scheme Controller} _.
Arguments calls {Mgr S Scheme Controller} _.

Section Registration.

Context {Mgr KubeClient S Scheme Controller : Type}
        `{Manager Mgr KubeClient S Scheme Controller}.

(** [newReconciler] returns a new reconciler. *)
Definition newReconciler (mgr : Mgr) : ReplicaSetReconciler S Scheme :=
  let mgrClient := GetClient mgr in
  mkReplicaSetReconciler (NewClient mgrClient) (GetScheme mgr).

(** [add] adds a new controller to [mgr] with [r] as the reconciler. *)
Definition add (mgr : Mgr) (r : ReplicaSetReconciler S Scheme)
  : Setup Mgr S Scheme Controller :=
  let options := controller.mkOptions r in
  let '(created, mgr1) := controllerNew "replicaset-controller" mgr options in
  match created with
  | inr err =>
      mkSetup (Some err) mgr1 [CallNew "replicaset-controller" options]
  | inl c =>
      let src := source.mkKind zeroMongoDB in
      let h := handler.mkEnqueueRequestForObject in
      let '(watched, mgr2) := Watch c src h mgr1 in
      let made := [CallNew "replicaset-controller" options; CallWatch c src h] in
      match watched with
      | Some err => mkSetup (Some err) mgr2 made
      | None => mkSetup None mgr2 made
      end
  end.

(** [Add] creates a new MongoDB controller and adds it to the manager. *)
Definition Add (mgr : Mgr) : Setup Mgr S Scheme Controller :=
  add mgr (newReconciler mgr).

End Registration.

(** ** Names without dots

    Kubernetes names of services and namespaces are DNS labels, which
    hold no dot. *)
Fixpoint dotFree (s : string) : bool :=
  match s with
  | EmptyString => true
  | String a rest => negb (Ascii.eqb a "."%char) && dotFree rest
  end.

(** ** Reading a run *)

(** The objects a run handed to [CreateOrUpdate], in order. *)
Definition upserted (l : list Event) : list Object :=
  omap (λ e, match e with EvCreateOrUpdate obj => Some obj | _ => None end) l.

(** The events only the workload step produces: the read of the agent
    image, with which [buildStatefulSet] starts, and the upsert of a
    stateful set. *)
Definition isWorkloadEvent (e : Event) : bool :=
  match e with
  | EvGetenv _ => true
  | EvCreateOrUpdate (ObjStatefulSet _) => true
  | _ => false
  end.

(** A label selector with match-labels selects the pods that carry each
    of its pairs among their labels. *)
Definition selects (selector : metav1.LabelSelector)
    (pod : corev1.PodTemplateSpec) : Prop :=
  map_Forall
    (λ k v, metav1.Labels (corev1.ptObjectMeta pod) !! k = Some v)
    (metav1.MatchLabels selector).

(** The payloads a reconciliation of [mdb] in the world [w] has to write,
    in order: the config map, when the document can be encoded, and then
    the stateful set, when it can be built. *)
Definition payloads {S : Type}
    (jsonMarshal : automationconfig.AutomationConfig → string + error)
    (resourceDefaults : corev1.ResourceRequirements)
    (mdb : mdbv1.MongoDB) (w : World S) : list Object :=
  match buildAutomationConfigConfigMap jsonMarshal mdb with
  | inr _ => []
  | inl cm =>
      ObjConfigMap cm ::
      match value (buildStatefulSet resourceDefaults mdb w) with
      | inr _ => []
      | inl sts => [ObjStatefulSet sts]
      end
  end.

(** The reads of the desired state. *)
Definition isGet (e : Event) : bool :=
  match e with EvGet _ => true | _ => false end.

(** ** An in-memory client and an encoder, to run the controller *)

Module fake.

(** The resources by namespace and name, and a script of outcomes: each
    call consumes the head of the script and fails with it when it is an
    error. *)
Record Store : Type := mkStore {
  mongodbs : gmap (string * string) mdbv1.MongoDB;
  configmaps : gmap (string * string) corev1.ConfigMap;
  statefulsets : gmap (string * string) appsv1.StatefulSet;
  script : list (option error)
}.

Definition notFound (key : types.NamespacedName) : error :=
  mkError NotFoundError ("mongodb " ++ types.Name key ++ " not found").

Definition get (key : types.NamespacedName) (s : Store)
  : (mdbv1.MongoDB + error) * Store :=
  let s' := mkStore (mongodbs s) (configmaps s) (statefulsets s)
              (tail (script s)) in
  match script s with
  | Some err :: _ => (inr err, s')
  | _ =>
      match mongodbs s !! (types.Namespace key, types.Name key) with
      | Some mdb => (inl mdb, s')
      | None => (inr (notFound key), s')
      end
  end.

Definition createOrUpdate (obj : Object) (s : Store)
  : option error * Store :=
  match script s with
  | Some err :: rest =>
      (Some err, mkStore (mongodbs s) (configmaps s) (statefulsets s) rest)
  | _ =>
      match obj with
      | ObjConfigMap cm =>
          (None,
           mkStore (mongodbs s)
             (<[(metav1.Namespace (corev1.cmObjectMeta cm),
                 metav1.Name (corev1.cmObjectMeta cm)) := cm]> (configmaps s))
             (statefulsets s) (tail (script s)))
      | ObjStatefulSet sts =>
          (None,
           mkStore (mongodbs s) (configmaps s)
             (<[(metav1.Namespace (appsv1.stsObjectMeta sts),
                 metav1.Name (appsv1.stsObjectMeta sts)) := sts]>
                (statefulsets s))
             (tail (script s)))
      end
  end.

#[global] Instance client : Client Store :=
  {| Get := get; CreateOrUpdate := createOrUpdate |}.

(** A line-oriented rendering of the document, standing for the JSON
    encoder on concrete inputs. *)
Definition render (ac : automationconfig.AutomationConfig) : string + error :=
  inl (String.concat ";"
         [ "topology=" ++ automationconfig.acTopology ac;
           "name=" ++ automationconfig.acName ac;
           "domain=" ++ automationconfig.acDomain ac;
           "version=" ++ automationconfig.acMongoDBVersion ac ]).

(** An encoder that rejects every document. *)
Definition reject (ac : automationconfig.AutomationConfig) : string + error :=
  inr (mkError SerializationError "cannot encode").

Definition noResources : corev1.ResourceRequirements :=
  corev1.mkResourceRequirements ∅ ∅.

Definition unavailable : error := mkError UpsertError "store unavailable".
Definition timeout : error := mkError ReadError "read timed out".

End fake.

(** The desired states and worlds of the specification's scenarios. *)
Module scenario.

(** Scenario A: a three-member replica set [my-rs] in [ns1]. *)
Definition myRs : mdbv1.MongoDB :=
  mdbv1.mkMongoDB "my-rs" "ns1" (mdbv1.mkMongoDBSpec 3 "4.2.0" "" "").

(** Scenario D: the same cluster with no members. *)
Definition noMembers : mdbv1.MongoDB :=
  mdbv1.mkMongoDB "my-rs" "ns1" (mdbv1.mkMongoDBSpec 0 "4.2.0" "" "").

Definition storeOf (mdb : mdbv1.MongoDB) (script : list (option error))
  : fake.Store :=
  fake.mkStore {[ (mdbv1.Namespace mdb, mdbv1.Name mdb) := mdb ]} ∅ ∅ script.

Definition world (mdb : mdbv1.MongoDB) (script : list (option error))
  : World fake.Store :=
  mkWorld (storeOf mdb script) {[ agentImageEnvVariable := "agent:1.0" ]}.

Definition requestFor (ns n : string) : reconcile.Request :=
  reconcile.mkRequest (types.mkNamespacedName ns n).

End scenario.

(** What the scenarios write for [my-rs], and the store after it. *)
Module more.

Definition configMap : corev1.ConfigMap :=
  corev1.mkConfigMap (metav1.mkObjectMeta "my-rs-config" "ns1" ∅)
    {[ "automation-config" :=
         "topology=replica-set;name=my-rs;domain=my-rs-service.ns1.svc.my-rs;version=4.2.0" ]}.

Definition statefulSet (image : string) : appsv1.StatefulSet :=
  appsv1.mkStatefulSet
    (metav1.mkObjectMeta "my-rs" "ns1" {[ "dummy" := "label" ]})
    (appsv1.mkStatefulSetSpec 3
       (metav1.mkLabelSelector {[ "dummy" := "label" ]})
       (corev1.mkPodTemplateSpec
          (metav1.mkObjectMeta "" "" {[ "dummy" := "label" ]})
          (corev1.mkPodSpec
             [ corev1.mkContainer "mongodb-agent" image fake.noResources
                 [ "agent/mongodb-agent";
                   "-cluster=/var/lib/automation/config/automation-config.json" ] ]))).

Definition written (cm : bool) (sts : bool) (script : list (option error))
  : fake.Store :=
  fake.mkStore (fake.mongodbs (scenario.storeOf scenario.myRs []))
    (if cm then {[ ("ns1", "my-rs-config") := configMap ]} else ∅)
    (if sts then {[ ("ns1", "my-rs") := statefulSet "agent:1.0" ]} else ∅)
    script.

End more.

(** ** A scripted runtime, to run the registration *)

Module fakemgr.

(** The manager is the script of the outcomes of the calls to come; a
    controller is known by its name. *)
#[global] Instance runtime
  : Manager (list (option error)) unit fake.Store unit string :=
  {| GetClient := λ _, tt;
     GetScheme := λ _, tt;
     NewClient := λ _, fake.client;
     controllerNew := λ name mgr _,
       match mgr with
       | Some err :: rest => (inr err, rest)
       | _ => (inl name, tail mgr)
       end;
     Watch := λ _ _ _ mgr,
       match mgr with
       | Some err :: rest => (Some err, rest)
       | _ => (None, tail mgr)
       end |}.

Definition refused : error := mkError BuildError "controller refused".

End fakemgr.

(** * Properties *)

(** ** Sequencing *)

Lemma bind_ret_l {S A B} (a : A) (k : A → M S B) (w : World S) :
  bind (ret a) k w = k a w.
Proof. unfold bind, ret; cbn. by destruct (k a w). Qed.

Lemma bind_ret_r {S A} (m : M S A) (w : World S) :
  bind m ret w = m w.
Proof.
  unfold bind, ret; cbn. destruct (m w) as [a w' l]; cbn.
  by rewrite app_nil_r.
Qed.

Lemma bind_assoc {S A B C} (m : M S A) (k : A → M S B) (h : B → M S C)
    (w : World S) :
  bind (bind m k) h w = bind m (λ a, bind (k a) h) w.
Proof. unfold bind; cbn. by rewrite app_assoc. Qed.

(** ** The domain namer *)

Lemma getDomain_explicit (s n c : string) :
  c ≠ "" → getDomain s n c = s ++ "." ++ n ++ ".svc." ++ c.
Proof.
  intros Hc. unfold getDomain.
  destruct (String.eqb_spec c "") as [->|_]; [done | reflexivity].
Qed.

(** C7.  An empty cluster domain stands for [cluster.local]; in general the
    domain is the service name, the namespace, [svc] and the cluster
    domain (or [cluster.local] when that is empty) joined by dots.  The
    namer is a function on all triples of strings: it has no failure
    mode and reads nothing but its arguments. *)
Theorem getDomain_default_and_format (s n c : string) :
  getDomain s n "" = getDomain s n "cluster.local"
  ∧ getDomain s n "" = s ++ "." ++ n ++ ".svc.cluster.local"
  ∧ getDomain s n c
    = s ++ "." ++ n ++ ".svc." ++ (if decide (c = "") then "cluster.local" else c).
Proof.
  split; [reflexivity | split; [reflexivity |]].
  destruct (decide (c = "")) as [->|Hc]; [reflexivity |].
  by apply getDomain_explicit.
Qed.

(** ** The automation document *)

(** C6.  The document carries the member count and the database version
    of the desired state unchanged, and its topology is a replica set. *)
Theorem buildAutomationConfig_copies (mdb : mdbv1.MongoDB) :
  automationconfig.acMembers (buildAutomationConfig mdb)
    = mdbv1.Members (mdbv1.Spec mdb)
  ∧ automationconfig.acMongoDBVersion (buildAutomationConfig mdb)
    = mdbv1.Version (mdbv1.Spec mdb)
  ∧ automationconfig.acTopology (buildAutomationConfig mdb)
    = automationconfig.ReplicaSetTopology.
Proof. repeat split. Qed.

Lemma buildAutomationConfig_version (mdb : mdbv1.MongoDB) :
  automationconfig.acVersion (buildAutomationConfig mdb) = 1%Z.
Proof. reflexivity. Qed.

(** C8.  Along any sequence of desired states reconciled one after the
    other, the config-generation counter of a later document is at least
    that of an earlier one; each of them is the initial value 1. *)
Theorem config_version_monotone
    (ds : list mdbv1.MongoDB) (i j : nat) (earlier later : mdbv1.MongoDB) :
  (i ≤ j)%nat →
  ds !! i = Some earlier →
  ds !! j = Some later →
  (automationconfig.acVersion (buildAutomationConfig earlier)
     ≤ automationconfig.acVersion (buildAutomationConfig later))%Z
  ∧ automationconfig.acVersion (buildAutomationConfig earlier) = 1%Z
  ∧ automationconfig.acVersion (buildAutomationConfig later) = 1%Z.
Proof.
  intros _ _ _. rewrite !buildAutomationConfig_version. lia.
Qed.

Section Properties.

Context {S : Type} `{Client S}.
Variable jsonMarshal : automationconfig.AutomationConfig → string + error.
Variable resourceDefaults : corev1.ResourceRequirements.

(** ** The workload descriptor *)

Lemma buildStatefulSet_events (mdb : mdbv1.MongoDB) (w : World S) :
  events (buildStatefulSet resourceDefaults mdb w)
    = [EvGetenv agentImageEnvVariable]
  ∧ after (buildStatefulSet resourceDefaults mdb w) = w.
Proof. split; reflexivity. Qed.

Lemma buildStatefulSet_value (mdb : mdbv1.MongoDB) (w : World S) :
  value (buildStatefulSet resourceDefaults mdb w)
  = if (mdbv1.Members (mdbv1.Spec mdb) <? 1)%Z
    then inr statefulset.invalidReplicas
    else inl (appsv1.mkStatefulSet
                (metav1.mkObjectMeta (mdbv1.Name mdb) (mdbv1.Namespace mdb)
                   {[ "dummy" := "label" ]})
                (appsv1.mkStatefulSetSpec
                   (mdbv1.Members (mdbv1.Spec mdb))
                   (metav1.mkLabelSelector {[ "dummy" := "label" ]})
                   (corev1.mkPodTemplateSpec
                      (metav1.mkObjectMeta "" "" {[ "dummy" := "label" ]})
                   (corev1.mkPodSpec
                      [ corev1.mkContainer agentName
                          (default "" (environ w !! agentImageEnvVariable))
                          resourceDefaults
                          [ "agent/mongodb-agent";
                            "-cluster=/var/lib/automation/config/automation-config.json" ] ])))).
Proof. reflexivity. Qed.

Lemma buildStatefulSet_total (mdb : mdbv1.MongoDB) (w : World S) :
  (1 ≤ mdbv1.Members (mdbv1.Spec mdb))%Z →
  ∃ sts, value (buildStatefulSet resourceDefaults mdb w) = inl sts.
Proof.
  intros Hm. rewrite buildStatefulSet_value.
  destruct (Z.ltb_spec (mdbv1.Members (mdbv1.Spec mdb)) 1); [lia | eauto].
Qed.

(** C9.  A desired state with at least one member yields a descriptor,
    and a descriptor built from any desired state has the member count
    as replica count, the cluster's name and namespace, one container
    named [mongodb-agent] with the image of the environment variable
    (empty when unset), the default resources and the fixed command,
    and the placeholder labels. *)
Theorem buildStatefulSet_shape (mdb : mdbv1.MongoDB) (w : World S) :
  ((1 ≤ mdbv1.Members (mdbv1.Spec mdb))%Z →
     ∃ sts, value (buildStatefulSet resourceDefaults mdb w) = inl sts)
  ∧ ∀ sts,
      value (buildStatefulSet resourceDefaults mdb w) = inl sts →
      appsv1.Replicas (appsv1.stsSpec sts) = mdbv1.Members (mdbv1.Spec mdb)
      ∧ metav1.Name (appsv1.stsObjectMeta sts) = mdbv1.Name mdb
      ∧ metav1.Namespace (appsv1.stsObjectMeta sts) = mdbv1.Namespace mdb
      ∧ corev1.Containers
          (corev1.ptSpec (appsv1.Template (appsv1.stsSpec sts)))
        = [ corev1.mkContainer "mongodb-agent"
              (default "" (environ w !! "AGENT_IMAGE"))
              resourceDefaults
              [ "agent/mongodb-agent";
                "-cluster=/var/lib/automation/config/automation-config.json" ] ]
      ∧ metav1.Labels (appsv1.stsObjectMeta sts) = {[ "dummy" := "label" ]}.
Proof.
  split; [apply buildStatefulSet_total |].
  intros sts. rewrite buildStatefulSet_value.
  destruct (_ <? _)%Z; [discriminate |].
  intros [= <-]. repeat split.
Qed.

(** C10.  The descriptor's labels, its selector's match-labels and its
    pod template's labels are one and the same map, so the selector
    selects the pods of the template. *)
Theorem buildStatefulSet_labels_agree (mdb : mdbv1.MongoDB) (w : World S) :
  ((1 ≤ mdbv1.Members (mdbv1.Spec mdb))%Z →
     ∃ sts, value (buildStatefulSet resourceDefaults mdb w) = inl sts)
  ∧ ∀ sts,
      value (buildStatefulSet resourceDefaults mdb w) = inl sts →
      metav1.Labels (appsv1.stsObjectMeta sts)
        = metav1.MatchLabels (appsv1.Selector (appsv1.stsSpec sts))
      ∧ metav1.MatchLabels (appsv1.Selector (appsv1.stsSpec sts))
        = metav1.Labels
            (corev1.ptObjectMeta (appsv1.Template (appsv1.stsSpec sts)))
      ∧ selects (appsv1.Selector (appsv1.stsSpec sts))
          (appsv1.Template (appsv1.stsSpec sts)).
Proof.
  split; [apply buildStatefulSet_total |].
  intros sts. rewrite buildStatefulSet_value.
  destruct (_ <? _)%Z; [discriminate |].
  intros [= <-]. cbn. repeat split.
  intros k v Hk. exact Hk.
Qed.

(** ** The control loop *)

Ltac run_reconcile :=
  unfold Reconcile, ensureAutomationConfig, bind, client.Get,
    client.CreateOrUpdate, log.Info, log.Warnf, log.Errorf, emit, ret;
  cbn.

(** C4.  When the read of the desired state fails with not-found, the
    run ends in success with no requeue, having made the read and no
    other call; when it fails in any other way, the run returns that
    error, which requeues the request. *)
Theorem Reconcile_read_failure
    (request : reconcile.Request) (w : World S) (err : error) (s1 : S) :
  Get (reconcile.NamespacedName request) (store w) = (inr err, s1) →
  let r := Reconcile jsonMarshal resourceDefaults request w in
  if errors.IsNotFound err then
    value r = (reconcile.ResultZero, None)
    ∧ reconcile.willRequeue (value r) = false
    ∧ events r = [ EvLog InfoLevel "Reconciling MongoDB";
                   EvGet (reconcile.NamespacedName request) ]
    ∧ upserted (events r) = []
    ∧ Forall (λ e, isWorkloadEvent e = false) (events r)
    ∧ after r = mkWorld s1 (environ w)
  else
    value r = (reconcile.ResultZero, Some err)
    ∧ reconcile.willRequeue (value r) = true
    ∧ upserted (events r) = [].
Proof.
  intros HGet r. subst r.
  destruct (errors.IsNotFound err) eqn:Hnf;
    run_reconcile; rewrite HGet; cbn; rewrite Hnf; cbn;
    repeat split; repeat constructor.
Qed.

(** C3.  When the upsert of the config map fails, the run returns the
    error, which requeues the request, and it stops there: it neither
    reads the agent image, with which the build of the stateful set
    starts, nor upserts a stateful set. *)
Theorem Reconcile_config_upsert_failure
    (request : reconcile.Request) (w : World S) (mdb : mdbv1.MongoDB)
    (cm : corev1.ConfigMap) (err : error) (s1 s2 : S) :
  Get (reconcile.NamespacedName request) (store w) = (inl mdb, s1) →
  buildAutomationConfigConfigMap jsonMarshal mdb = inl cm →
  CreateOrUpdate (ObjConfigMap cm) s1 = (Some err, s2) →
  let r := Reconcile jsonMarshal resourceDefaults request w in
  value r = (reconcile.ResultZero, Some err)
  ∧ reconcile.willRequeue (value r) = true
  ∧ events r = [ EvLog InfoLevel "Reconciling MongoDB";
                 EvGet (reconcile.NamespacedName request);
                 EvCreateOrUpdate (ObjConfigMap cm);
                 EvLog WarnLevel ("failed creating config map: " ++ Error err) ]
  ∧ Forall (λ e, isWorkloadEvent e = false) (events r)
  ∧ after r = mkWorld s2 (environ w).
Proof.
  intros HGet Hcm Hup r. subst r. run_reconcile.
  rewrite HGet; cbn. rewrite Hcm; cbn. rewrite Hup; cbn.
  repeat split; repeat constructor.
Qed.

(** C2.  When the desired state was fetched and its config map written,
    a failure of the build of the stateful set ends the run with no
    error and no requeue, and no stateful set is upserted.  A desired
    state with zero members makes the build fail with a [BuildError],
    and the run then requests no requeue. *)
Theorem Reconcile_build_failure
    (request : reconcile.Request) (w : World S) (mdb : mdbv1.MongoDB)
    (cm : corev1.ConfigMap) (s1 s2 : S) :
  Get (reconcile.NamespacedName request) (store w) = (inl mdb, s1) →
  buildAutomationConfigConfigMap jsonMarshal mdb = inl cm →
  CreateOrUpdate (ObjConfigMap cm) s1 = (None, s2) →
  let r := Reconcile jsonMarshal resourceDefaults request w in
  let built :=
    value (buildStatefulSet resourceDefaults mdb (mkWorld s2 (environ w))) in
  (∀ err, built = inr err →
     value r = (reconcile.ResultZero, None)
     ∧ reconcile.willRequeue (value r) = false
     ∧ events r = [ EvLog InfoLevel "Reconciling MongoDB";
                    EvGet (reconcile.NamespacedName request);
                    EvCreateOrUpdate (ObjConfigMap cm);
                    EvGetenv agentImageEnvVariable;
                    EvLog WarnLevel ("error building StatefulSet: " ++ Error err) ]
     ∧ upserted (events r) = [ObjConfigMap cm]
     ∧ after r = mkWorld s2 (environ w))
  ∧ (mdbv1.Members (mdbv1.Spec mdb) = 0%Z →
       (∃ err, built = inr err ∧ errKind err = BuildError)
       ∧ reconcile.willRequeue (value r) = false).
Proof.
  intros HGet Hcm Hup r built.
  assert (Hfail : ∀ err, built = inr err →
            value r = (reconcile.ResultZero, None)
            ∧ reconcile.willRequeue (value r) = false
            ∧ events r = [ EvLog InfoLevel "Reconciling MongoDB";
                           EvGet (reconcile.NamespacedName request);
                           EvCreateOrUpdate (ObjConfigMap cm);
                           EvGetenv agentImageEnvVariable;
                           EvLog WarnLevel
                             ("error building StatefulSet: " ++ Error err) ]
            ∧ upserted (events r) = [ObjConfigMap cm]
            ∧ after r = mkWorld s2 (environ w)).
  { intros err. subst r built. rewrite buildStatefulSet_value.
    run_reconcile. rewrite HGet; cbn. rewrite Hcm; cbn. rewrite Hup; cbn.
    unfold statefulset.Build; cbn.
    destruct (_ <? _)%Z; [| discriminate].
    intros [= <-]. cbn. repeat split. }
  split; [exact Hfail |].
  intros Hzero.
  assert (Hb : built = inr statefulset.invalidReplicas).
  { subst built. rewrite buildStatefulSet_value, Hzero. reflexivity. }
  split; [by exists statefulset.invalidReplicas |].
  by destruct (Hfail _ Hb) as (_ & ? & _).
Qed.

(** ** The config artifact *)

(** C1 (scenario A on the code).  The config map of [my-rs] in [ns1] is
    named [my-rs-config], lies in [ns1] and has the encoded document as
    its single entry; the document is a replica set of three members.
    Its domain ends in the cluster's name, which [buildAutomationConfig]
    passes where [getDomain] takes the cluster domain; it is not the
    [cluster.local] domain of the scenario. *)
Theorem scenarioA_config_map (payload : string) :
  jsonMarshal (buildAutomationConfig scenario.myRs) = inl payload →
  buildAutomationConfigConfigMap jsonMarshal scenario.myRs
    = inl (corev1.mkConfigMap (metav1.mkObjectMeta "my-rs-config" "ns1" ∅)
             {[ "automation-config" := payload ]})
  ∧ automationconfig.acTopology (buildAutomationConfig scenario.myRs)
    = automationconfig.ReplicaSetTopology
  ∧ automationconfig.acMembers (buildAutomationConfig scenario.myRs) = 3%Z
  ∧ automationconfig.acDomain (buildAutomationConfig scenario.myRs)
    = "my-rs-service.ns1.svc.my-rs"
  ∧ automationconfig.acDomain (buildAutomationConfig scenario.myRs)
    ≠ "my-rs-service.ns1.svc.cluster.local".
Proof.
  intros Henc. unfold buildAutomationConfigConfigMap. rewrite Henc.
  repeat split. discriminate.
Qed.

(** ** Idempotence *)

Lemma payloads_environ (mdb : mdbv1.MongoDB) (w1 w2 : World S) :
  environ w1 !! agentImageEnvVariable = environ w2 !! agentImageEnvVariable →
  payloads jsonMarshal resourceDefaults mdb w1
    = payloads jsonMarshal resourceDefaults mdb w2.
Proof.
  intros Henv. unfold payloads.
  rewrite !buildStatefulSet_value, Henv. reflexivity.
Qed.

(** What a run writes is an initial part of the payloads of the desired
    state it fetched. *)
Lemma Reconcile_upserted_prefix
    (request : reconcile.Request) (w : World S) (mdb : mdbv1.MongoDB) (s1 : S) :
  Get (reconcile.NamespacedName request) (store w) = (inl mdb, s1) →
  upserted (events (Reconcile jsonMarshal resourceDefaults request w))
    `prefix_of` payloads jsonMarshal resourceDefaults mdb w.
Proof.
  intros HGet. unfold payloads. rewrite buildStatefulSet_value.
  run_reconcile. rewrite HGet; cbn.
  destruct (buildAutomationConfigConfigMap jsonMarshal mdb) as [cm|e0]; cbn;
    [| by exists []].
  destruct (CreateOrUpdate (ObjConfigMap cm) s1) as [[e1|] s2]; cbn;
    [by eexists |].
  unfold statefulset.Build; cbn.
  destruct (_ <? _)%Z; cbn; [by exists [] |].
  match goal with
  | |- context [CreateOrUpdate (ObjStatefulSet ?sts) s2] =>
      destruct (CreateOrUpdate (ObjStatefulSet sts) s2) as [[e2|] s3]
  end; cbn; by exists [].
Qed.

(** C5.  Two builds of the stateful set of one desired state, in worlds
    that agree on the agent image, give the same descriptor; so does a
    second build right after a first.  Two reconciliations that
    fetched the same desired state in such worlds write the same config
    map and the same stateful set, as far as each of them gets. *)
Theorem builders_idempotent
    (mdb : mdbv1.MongoDB) (w1 w2 : World S)
    (request1 request2 : reconcile.Request) (s1 s2 : S) :
  environ w1 !! agentImageEnvVariable = environ w2 !! agentImageEnvVariable →
  Get (reconcile.NamespacedName request1) (store w1) = (inl mdb, s1) →
  Get (reconcile.NamespacedName request2) (store w2) = (inl mdb, s2) →
  value (buildStatefulSet resourceDefaults mdb w1)
    = value (buildStatefulSet resourceDefaults mdb w2)
  ∧ value (buildStatefulSet resourceDefaults mdb
             (after (buildStatefulSet resourceDefaults mdb w1)))
    = value (buildStatefulSet resourceDefaults mdb w1)
  ∧ ∀ (i : nat) (o1 o2 : Object),
      upserted (events (Reconcile jsonMarshal resourceDefaults request1 w1))
        !! i = Some o1 →
      upserted (events (Reconcile jsonMarshal resourceDefaults request2 w2))
        !! i = Some o2 →
      o1 = o2.
Proof.
  intros Henv HGet1 HGet2. split; [| split].
  - rewrite !buildStatefulSet_value, Henv. reflexivity.
  - reflexivity.
  - intros i o1 o2 Ho1 Ho2.
    pose proof (Reconcile_upserted_prefix _ _ _ _ HGet1) as P1.
    pose proof (Reconcile_upserted_prefix _ _ _ _ HGet2) as P2.
    rewrite <- (payloads_environ mdb w1 w2 Henv) in P2.
    pose proof (prefix_lookup_Some _ _ _ _ Ho1 P1) as L1.
    pose proof (prefix_lookup_Some _ _ _ _ Ho2 P2) as L2.
    congruence.
Qed.

End Properties.

(** * Further properties *)

(** ** Strings *)

Lemma append_cons (a : ascii) (s t : string) :
  String a s ++ t = String a (s ++ t).
Proof. reflexivity. Qed.

Lemma append_assoc (s t u : string) : (s ++ t) ++ u = s ++ t ++ u.
Proof.
  induction s as [|a s IH]; [reflexivity |].
  rewrite !append_cons. by rewrite IH.
Qed.

Lemma length_append (s t : string) :
  String.length (s ++ t) = (String.length s + String.length t)%nat.
Proof.
  induction s as [|a s IH]; [reflexivity |].
  rewrite append_cons. cbn [String.length]. by rewrite IH.
Qed.

(** A string splits in one way only at its first dot. *)
Lemma split_at_dot (s1 s2 r1 r2 : string) :
  dotFree s1 = true → dotFree s2 = true →
  s1 ++ String "." r1 = s2 ++ String "." r2 →
  s1 = s2 ∧ r1 = r2.
Proof.
  revert s2. induction s1 as [|a s1 IH]; intros [|b s2] H1 H2 Heq.
  - by injection Heq.
  - rewrite append_cons in Heq. injection Heq as <- _.
    cbn in H2. discriminate.
  - rewrite append_cons in Heq. injection Heq as -> _.
    cbn in H1. discriminate.
  - rewrite !append_cons in Heq. injection Heq as -> Heq.
    cbn in H1, H2.
    apply andb_true_iff in H1 as [_ H1]. apply andb_true_iff in H2 as [_ H2].
    destruct (IH s2 H1 H2 Heq) as [-> ->]. done.
Qed.

(** ** The domain namer, continued *)

Lemma getDomain_unfold (s n c : string) :
  getDomain s n c
  = s ++ String "." (n ++ String "." ("svc." ++ (if String.eqb c "" then "cluster.local" else c))).
Proof. reflexivity. Qed.

(** X1.  On names without dots, as service and namespace names are, the
    domain determines its parts: two calls that give the same domain were
    made with the same service, the same namespace and cluster domains
    that are equal once the default is filled in. *)
Theorem getDomain_injective (s1 n1 c1 s2 n2 c2 : string) :
  dotFree s1 = true → dotFree n1 = true →
  dotFree s2 = true → dotFree n2 = true →
  getDomain s1 n1 c1 = getDomain s2 n2 c2 →
  s1 = s2 ∧ n1 = n2
  ∧ (if String.eqb c1 "" then "cluster.local" else c1)
    = (if String.eqb c2 "" then "cluster.local" else c2).
Proof.
  intros Hs1 Hn1 Hs2 Hn2. rewrite !getDomain_unfold. intros Heq.
  destruct (split_at_dot _ _ _ _ Hs1 Hs2 Heq) as [-> Heq'].
  destruct (split_at_dot _ _ _ _ Hn1 Hn2 Heq') as [-> Heq''].
  repeat split. by simplify_eq.
Qed.

(** X2.  Nothing in [getDomain] keeps dots out of its arguments, and with
    them the domain no longer tells its parts: a dot in the service name
    reads as well as a dot in the namespace. *)
Theorem getDomain_dot_ambiguity (s n m c : string) :
  getDomain (s ++ "." ++ n) m c = getDomain s (n ++ "." ++ m) c.
Proof.
  unfold getDomain. by rewrite !append_assoc.
Qed.

(** X3.  The domain is as long as its three parts and the six
    characters that join them, with the thirteen of [cluster.local] for
    an empty cluster domain; it is never empty. *)
Theorem getDomain_length (s n c : string) :
  String.length (getDomain s n c)
  = (String.length s + String.length n + 6
     + (if String.eqb c "" then 13 else String.length c))%nat
  ∧ getDomain s n c ≠ "".
Proof.
  split.
  - unfold getDomain. rewrite !length_append.
    destruct (String.eqb c ""); cbn; lia.
  - rewrite getDomain_unfold. by destruct s.
Qed.

(** ** The builders, continued *)

(** X4.  For a resource with a name, the domain of the automation
    document is the service name, the namespace, [svc] and the resource's
    own name: [buildAutomationConfig] hands the name to [getDomain] as
    cluster domain, so the [cluster.local] default is out of reach. *)
Theorem buildAutomationConfig_domain (mdb : mdbv1.MongoDB) :
  mdbv1.Name mdb ≠ "" →
  automationconfig.acDomain (buildAutomationConfig mdb)
    = mdbv1.ServiceName mdb ++ "." ++ mdbv1.Namespace mdb ++ ".svc."
      ++ mdbv1.Name mdb
  ∧ automationconfig.acName (buildAutomationConfig mdb) = mdbv1.Name mdb.
Proof.
  intros Hname. split; [| reflexivity].
  change (automationconfig.acDomain (buildAutomationConfig mdb))
    with (getDomain (mdbv1.ServiceName mdb) (mdbv1.Namespace mdb)
            (mdbv1.Name mdb)).
  by apply getDomain_explicit.
Qed.

Section Builders.

Context {S : Type}.
Variable jsonMarshal : automationconfig.AutomationConfig → string + error.
Variable resourceDefaults : corev1.ResourceRequirements.

(** X5.  The config map is built exactly when the document can be
    encoded, and an encoding error is returned as it is.  A built config
    map has the resource's config-map name and namespace, holds the
    encoded document under [automation-config] and holds nothing else. *)
Theorem buildAutomationConfigConfigMap_cases (mdb : mdbv1.MongoDB) :
  match jsonMarshal (buildAutomationConfig mdb) with
  | inr err => buildAutomationConfigConfigMap jsonMarshal mdb = inr err
  | inl acBytes =>
      ∃ cm,
        buildAutomationConfigConfigMap jsonMarshal mdb = inl cm
        ∧ metav1.Name (corev1.cmObjectMeta cm) = mdbv1.ConfigMapName mdb
        ∧ metav1.Namespace (corev1.cmObjectMeta cm) = mdbv1.Namespace mdb
        ∧ corev1.Data cm !! automationConfigKey = Some acBytes
        ∧ ∀ k, k ≠ automationConfigKey → corev1.Data cm !! k = None
  end.
Proof.
  unfold buildAutomationConfigConfigMap.
  destruct (jsonMarshal (buildAutomationConfig mdb)) as [acBytes|err];
    [| reflexivity].
  eexists. split; [reflexivity |]. cbn.
  split; [reflexivity |]. split; [reflexivity |]. split.
  - apply lookup_insert_eq.
  - intros k Hk. rewrite lookup_insert_ne by done. apply lookup_empty.
Qed.

(** X6.  The stateful sets of any two resources carry the same labels,
    and the selector of either selects the pods of the other. *)
Theorem buildStatefulSet_selectors_overlap
    (mdb1 mdb2 : mdbv1.MongoDB) (w1 w2 : World S)
    (sts1 sts2 : appsv1.StatefulSet) :
  value (buildStatefulSet resourceDefaults mdb1 w1) = inl sts1 →
  value (buildStatefulSet resourceDefaults mdb2 w2) = inl sts2 →
  metav1.Labels (appsv1.stsObjectMeta sts1)
    = metav1.Labels (appsv1.stsObjectMeta sts2)
  ∧ appsv1.Selector (appsv1.stsSpec sts1) = appsv1.Selector (appsv1.stsSpec sts2)
  ∧ selects (appsv1.Selector (appsv1.stsSpec sts1))
      (appsv1.Template (appsv1.stsSpec sts2)).
Proof.
  rewrite !buildStatefulSet_value.
  destruct (_ <? _)%Z; [discriminate |]. intros [= <-].
  destruct (_ <? _)%Z; [discriminate |]. intros [= <-].
  cbn. repeat split. intros k v Hk. exact Hk.
Qed.

(** X7.  An unset agent image does not stop the build: a resource with
    at least one member still gets its stateful set, whose container has
    the empty image. *)
Theorem buildStatefulSet_unset_image (mdb : mdbv1.MongoDB) (w : World S) :
  environ w !! agentImageEnvVariable = None →
  (1 ≤ mdbv1.Members (mdbv1.Spec mdb))%Z →
  ∃ sts,
    value (buildStatefulSet resourceDefaults mdb w) = inl sts
    ∧ corev1.Image
        <$> corev1.Containers
              (corev1.ptSpec (appsv1.Template (appsv1.stsSpec sts)))
      = [""].
Proof.
  intros Henv Hm. rewrite buildStatefulSet_value, Henv.
  destruct (Z.ltb_spec (mdbv1.Members (mdbv1.Spec mdb)) 1); [lia |].
  eexists. split; reflexivity.
Qed.

End Builders.

(** ** Registration *)

Section RegistrationProperties.

Context {Mgr KubeClient S Scheme Controller : Type}
        `{Manager Mgr KubeClient S Scheme Controller}.

(** X16.  When [controller.New] fails, [add] returns its error and never
    calls [Watch]. *)
Theorem add_new_failure
    (mgr mgr1 : Mgr) (r : ReplicaSetReconciler S Scheme) (err : error) :
  controllerNew "replicaset-controller" mgr (controller.mkOptions r)
    = (inr err, mgr1) →
  result (add mgr r) = Some err
  ∧ calls (add mgr r)
    = [CallNew "replicaset-controller" (controller.mkOptions r)]
  ∧ manager (add mgr r) = mgr1.
Proof. intros HNew. unfold add. rewrite HNew. done. Qed.

(** X17.  When [controller.New] yields a controller, [add] subscribes it
    to the MongoDB kind with the enqueue-for-object handler and returns
    what [Watch] returns, nil or its error. *)
Theorem add_watch_result
    (mgr mgr1 mgr2 : Mgr) (r : ReplicaSetReconciler S Scheme)
    (c : Controller) (e : option error) :
  controllerNew "replicaset-controller" mgr (controller.mkOptions r)
    = (inl c, mgr1) →
  Watch c (source.mkKind zeroMongoDB) handler.mkEnqueueRequestForObject mgr1
    = (e, mgr2) →
  result (add mgr r) = e
  ∧ calls (add mgr r)
    = [ CallNew "replicaset-controller" (controller.mkOptions r);
        CallWatch c (source.mkKind zeroMongoDB)
          handler.mkEnqueueRequestForObject ]
  ∧ manager (add mgr r) = mgr2.
Proof.
  intros HNew HWatch. unfold add. rewrite HNew, HWatch. by destruct e.
Qed.

(** X18.  When [Add] returns nil, a controller was created for a
    reconciler holding the manager's wrapped client and its scheme, and
    that controller watches the MongoDB kind. *)
Theorem Add_success_registers (mgr : Mgr) :
  result (Add mgr) = None →
  ∃ c mgr1,
    controllerNew "replicaset-controller" mgr
      (controller.mkOptions
         (mkReplicaSetReconciler (NewClient (GetClient mgr)) (GetScheme mgr)))
      = (inl c, mgr1)
    ∧ Watch c (source.mkKind zeroMongoDB) handler.mkEnqueueRequestForObject mgr1
      = (None, manager (Add mgr))
    ∧ calls (Add mgr)
      = [ CallNew "replicaset-controller"
            (controller.mkOptions
               (mkReplicaSetReconciler (NewClient (GetClient mgr))
                  (GetScheme mgr)));
          CallWatch c (source.mkKind zeroMongoDB)
            handler.mkEnqueueRequestForObject ].
Proof.
  unfold Add, add, newReconciler.
  destruct (controllerNew _ _ _) as [[c|err] mgr1] eqn:HNew; [| discriminate].
  destruct (Watch c _ _ mgr1) as [[err|] mgr2] eqn:HWatch; [discriminate |].
  intros _. exists c, mgr1. rewrite HWatch. done.
Qed.

End RegistrationProperties.

(** ** The control loop, continued *)

Ltac unfold_reconcile :=
  unfold Reconcile, ensureAutomationConfig, bind, client.Get,
    client.CreateOrUpdate, log.Info, log.Warnf, log.Errorf, emit, ret.

Section ControlLoop.

Context {S : Type} `{Client S}.
Variable jsonMarshal : automationconfig.AutomationConfig → string + error.
Variable resourceDefaults : corev1.ResourceRequirements.

(** What [Reconcile] does once the desired state is fetched and the
    config map written. *)
Lemma Reconcile_after_config
    (request : reconcile.Request) (w : World S) (mdb : mdbv1.MongoDB)
    (cm : corev1.ConfigMap) (sts : appsv1.StatefulSet)
    (e : option error) (s1 s2 s3 : S) :
  Get (reconcile.NamespacedName request) (store w) = (inl mdb, s1) →
  buildAutomationConfigConfigMap jsonMarshal mdb = inl cm →
  CreateOrUpdate (ObjConfigMap cm) s1 = (None, s2) →
  value (buildStatefulSet resourceDefaults mdb (mkWorld s2 (environ w)))
    = inl sts →
  CreateOrUpdate (ObjStatefulSet sts) s2 = (e, s3) →
  Reconcile jsonMarshal resourceDefaults request w
  = mkRun (reconcile.ResultZero, e) (mkWorld s3 (environ w))
      [ EvLog InfoLevel "Reconciling MongoDB";
        EvGet (reconcile.NamespacedName request);
        EvCreateOrUpdate (ObjConfigMap cm);
        EvGetenv agentImageEnvVariable;
        EvCreateOrUpdate (ObjStatefulSet sts);
        match e with
        | Some err =>
            EvLog WarnLevel ("error creating/updating StatefulSet: " ++ Error err)
        | None => EvLog InfoLevel "Successfully finished reconciliation"
        end ].
Proof.
  intros HGet Hcm Hup Hsts Hup2.
  rewrite buildStatefulSet_value in Hsts.
  unfold_reconcile; cbn. rewrite HGet; cbn. rewrite Hcm; cbn. rewrite Hup; cbn.
  unfold statefulset.Build; cbn.
  destruct (_ <? _)%Z; [discriminate |].
  injection Hsts as Hsts. cbn. rewrite Hsts, Hup2.
  destruct e; reflexivity.
Qed.

Ltac reconcile_paths :=
  unfold_reconcile; cbn -[errors.IsNotFound];
  destruct (Get _ _) as [[mdb|err] s1] eqn:HGet; cbn -[errors.IsNotFound];
  [ destruct (buildAutomationConfigConfigMap _ mdb) as [cm|e0] eqn:Hcm; cbn;
    [ destruct (CreateOrUpdate (ObjConfigMap cm) s1) as [[e1|] s2] eqn:Hup; cbn;
      [ | unfold statefulset.Build; cbn;
          destruct (_ <? _)%Z eqn:Hm; cbn;
          [ | match goal with
              | |- context [CreateOrUpdate (ObjStatefulSet ?x) s2] =>
                  destruct (CreateOrUpdate (ObjStatefulSet x) s2)
                    as [[e2|] s3] eqn:Hup2
              end; cbn ] ]
    | ]
  | destruct (errors.IsNotFound err) eqn:Hnf; cbn ].

(** X9.  Whatever happens, the result of [Reconcile] is the zero result:
    it never sets [Requeue] or [RequeueAfter], so the request is requeued
    exactly when an error is returned.  The run leaves the process
    environment as it found it. *)
Theorem Reconcile_result_zero (request : reconcile.Request) (w : World S) :
  let r := Reconcile jsonMarshal resourceDefaults request w in
  fst (value r) = reconcile.ResultZero
  ∧ (reconcile.willRequeue (value r) = true ↔ is_Some (snd (value r)))
  ∧ environ (after r) = environ w.
Proof.
  cbv zeta. reconcile_paths; (split; [reflexivity | split; [| reflexivity]]);
    cbn; split; try done; try (by intros [? [=]]); eauto.
Qed.

(** X10.  Every run opens with its log line and one [Get] for the key of
    the request, and reads no other resource; it hands at most two
    objects to [CreateOrUpdate]. *)
Theorem Reconcile_trace_shape (request : reconcile.Request) (w : World S) :
  let r := Reconcile jsonMarshal resourceDefaults request w in
  ∃ rest,
    events r = EvLog InfoLevel "Reconciling MongoDB"
               :: EvGet (reconcile.NamespacedName request) :: rest
    ∧ Forall (λ e, isGet e = false) rest
    ∧ (length (upserted (events r)) ≤ 2)%nat.
Proof.
  cbv zeta. reconcile_paths; eexists; (split; [reflexivity |]);
    (split; [| cbv; lia]); repeat constructor.
Qed.

(** X11.  A stateful set is handed to [CreateOrUpdate] only in a run that
    fetched the desired state and whose config map was built and accepted
    by the client first; it is the stateful set built from that desired
    state, and the config map and it are all the run writes. *)
Theorem Reconcile_writes_in_order
    (request : reconcile.Request) (w : World S) (sts : appsv1.StatefulSet) :
  let r := Reconcile jsonMarshal resourceDefaults request w in
  ObjStatefulSet sts ∈ upserted (events r) →
  ∃ mdb cm s1 s2,
    Get (reconcile.NamespacedName request) (store w) = (inl mdb, s1)
    ∧ buildAutomationConfigConfigMap jsonMarshal mdb = inl cm
    ∧ CreateOrUpdate (ObjConfigMap cm) s1 = (None, s2)
    ∧ value (buildStatefulSet resourceDefaults mdb (mkWorld s2 (environ w)))
      = inl sts
    ∧ upserted (events r) = [ObjConfigMap cm; ObjStatefulSet sts].
Proof.
  cbv zeta. reconcile_paths; cbn; intros Hin;
    repeat match goal with
    | Hx : _ ∈ [] |- _ => by apply elem_of_nil in Hx
    | Hx : _ ∈ _ :: _ |- _ => apply elem_of_cons in Hx as [Hx|Hx]
    | Hx : ObjStatefulSet _ = ObjConfigMap _ |- _ => discriminate Hx
    | Hx : ObjStatefulSet _ = ObjStatefulSet _ |- _ => injection Hx as ->
    end;
    exists mdb, cm, s1, s2; rewrite Hm; done.
Qed.

(** X12.  A run that returns no error ended in one of three ways: the
    resource was not found and nothing was written; or the config map was
    written and the build of the stateful set failed, the error being
    dropped; or both the config map and the stateful set were written and
    accepted. *)
Theorem Reconcile_nil_means
    (request : reconcile.Request) (w : World S) :
  let r := Reconcile jsonMarshal resourceDefaults request w in
  snd (value r) = None →
  (∃ err s1,
      Get (reconcile.NamespacedName request) (store w) = (inr err, s1)
      ∧ errors.IsNotFound err = true
      ∧ upserted (events r) = []
      ∧ after r = mkWorld s1 (environ w))
  ∨ (∃ mdb s1 cm s2 err,
        Get (reconcile.NamespacedName request) (store w) = (inl mdb, s1)
        ∧ buildAutomationConfigConfigMap jsonMarshal mdb = inl cm
        ∧ CreateOrUpdate (ObjConfigMap cm) s1 = (None, s2)
        ∧ value (buildStatefulSet resourceDefaults mdb
                   (mkWorld s2 (environ w))) = inr err
        ∧ upserted (events r) = [ObjConfigMap cm]
        ∧ after r = mkWorld s2 (environ w))
  ∨ (∃ mdb s1 cm s2 sts s3,
        Get (reconcile.NamespacedName request) (store w) = (inl mdb, s1)
        ∧ buildAutomationConfigConfigMap jsonMarshal mdb = inl cm
        ∧ CreateOrUpdate (ObjConfigMap cm) s1 = (None, s2)
        ∧ value (buildStatefulSet resourceDefaults mdb
                   (mkWorld s2 (environ w))) = inl sts
        ∧ CreateOrUpdate (ObjStatefulSet sts) s2 = (None, s3)
        ∧ upserted (events r) = [ObjConfigMap cm; ObjStatefulSet sts]
        ∧ after r = mkWorld s3 (environ w)).
Proof.
  cbv zeta. reconcile_paths; cbn; intros Hnil; try discriminate.
  - right; left. exists mdb, s1, cm, s2, statefulset.invalidReplicas.
    rewrite Hm. done.
  - right; right. eexists mdb, s1, cm, s2, _, s3. rewrite Hm. done.
  - left. by exists err, s1.
Qed.


(** X14.  When the upsert of the stateful set fails, the run returns
    that error, which requeues the request; the config map was written
    before. *)
Theorem Reconcile_workload_upsert_failure
    (request : reconcile.Request) (w : World S) (mdb : mdbv1.MongoDB)
    (cm : corev1.ConfigMap) (sts : appsv1.StatefulSet) (err : error)
    (s1 s2 s3 : S) :
  Get (reconcile.NamespacedName request) (store w) = (inl mdb, s1) →
  buildAutomationConfigConfigMap jsonMarshal mdb = inl cm →
  CreateOrUpdate (ObjConfigMap cm) s1 = (None, s2) →
  value (buildStatefulSet resourceDefaults mdb (mkWorld s2 (environ w)))
    = inl sts →
  CreateOrUpdate (ObjStatefulSet sts) s2 = (Some err, s3) →
  let r := Reconcile jsonMarshal resourceDefaults request w in
  value r = (reconcile.ResultZero, Some err)
  ∧ reconcile.willRequeue (value r) = true
  ∧ events r = [ EvLog InfoLevel "Reconciling MongoDB";
                 EvGet (reconcile.NamespacedName request);
                 EvCreateOrUpdate (ObjConfigMap cm);
                 EvGetenv agentImageEnvVariable;
                 EvCreateOrUpdate (ObjStatefulSet sts);
                 EvLog WarnLevel
                   ("error creating/updating StatefulSet: " ++ Error err) ]
  ∧ after r = mkWorld s3 (environ w).
Proof.
  intros HGet Hcm Hup Hsts Hup2 r. subst r.
  rewrite (Reconcile_after_config _ _ _ _ _ _ _ _ _ HGet Hcm Hup Hsts Hup2).
  done.
Qed.

(** X15.  When the automation document cannot be encoded, the run
    returns the encoder's error, which requeues the request, and calls
    the client for nothing but the read: no config map and no stateful
    set is written. *)
Theorem Reconcile_encoding_failure
    (request : reconcile.Request) (w : World S) (mdb : mdbv1.MongoDB)
    (err : error) (s1 : S) :
  Get (reconcile.NamespacedName request) (store w) = (inl mdb, s1) →
  jsonMarshal (buildAutomationConfig mdb) = inr err →
  let r := Reconcile jsonMarshal resourceDefaults request w in
  value r = (reconcile.ResultZero, Some err)
  ∧ reconcile.willRequeue (value r) = true
  ∧ events r = [ EvLog InfoLevel "Reconciling MongoDB";
                 EvGet (reconcile.NamespacedName request);
                 EvLog WarnLevel ("failed creating config map: " ++ Error err) ]
  ∧ after r = mkWorld s1 (environ w).
Proof.
  intros HGet Henc r. subst r.
  unfold_reconcile; cbn. rewrite HGet; cbn.
  unfold buildAutomationConfigConfigMap. rewrite Henc. done.
Qed.

(** ** Ensuring the config map *)

(** X8.  [ensureAutomationConfig] returns nil exactly when the config map
    was built and the client accepted it, having made that one call; when
    the document cannot be encoded it returns the encoder's error and
    calls nothing. *)
Theorem ensureAutomationConfig_nil_iff (mdb : mdbv1.MongoDB) (w : World S) :
  let r := ensureAutomationConfig jsonMarshal mdb w in
  (value r = None ↔
     ∃ cm s,
       buildAutomationConfigConfigMap jsonMarshal mdb = inl cm
       ∧ CreateOrUpdate (ObjConfigMap cm) (store w) = (None, s)
       ∧ events r = [EvCreateOrUpdate (ObjConfigMap cm)]
       ∧ after r = mkWorld s (environ w))
  ∧ (∀ err,
       jsonMarshal (buildAutomationConfig mdb) = inr err →
       value r = Some err ∧ events r = [] ∧ after r = w).
Proof.
  cbv zeta. split.
  - unfold ensureAutomationConfig, bind, client.CreateOrUpdate, ret.
    destruct (buildAutomationConfigConfigMap jsonMarshal mdb) as [cm|e0]; cbn.
    + destruct (CreateOrUpdate (ObjConfigMap cm) (store w)) as [[e1|] s] eqn:Hup;
        cbn; split; try done.
      * intros (cm' & s' & [= <-] & Hup' & _). rewrite Hup in Hup'. done.
      * intros _. by exists cm, s.
    + split; [done |]. by intros (cm' & s' & ? & _).
  - intros err Henc.
    unfold ensureAutomationConfig, buildAutomationConfigConfigMap.
    rewrite Henc. done.
Qed.

End ControlLoop.

(** * The scenarios, run on the in-memory client *)

(** Two documents for [my-rs], before and after a change of its member
    count: both carry the counter 1. *)
Lemma config_version_monotone_witness :
  (automationconfig.acVersion (buildAutomationConfig scenario.noMembers)
     ≤ automationconfig.acVersion (buildAutomationConfig scenario.myRs))%Z
  ∧ automationconfig.acVersion (buildAutomationConfig scenario.noMembers) = 1%Z
  ∧ automationconfig.acVersion (buildAutomationConfig scenario.myRs) = 1%Z.
Proof.
  apply (config_version_monotone [scenario.noMembers; scenario.myRs] 0 1);
    [lia | reflexivity | reflexivity].
Defined.

(** The stateful set of [my-rs]: three replicas of the agent image of the
    environment. *)
Lemma buildStatefulSet_shape_witness :
  ∃ sts,
    value (buildStatefulSet fake.noResources scenario.myRs
             (scenario.world scenario.myRs [])) = inl sts
    ∧ appsv1.Replicas (appsv1.stsSpec sts) = 3%Z
    ∧ metav1.Name (appsv1.stsObjectMeta sts) = "my-rs"
    ∧ metav1.Namespace (appsv1.stsObjectMeta sts) = "ns1".
Proof.
  destruct (buildStatefulSet_shape fake.noResources scenario.myRs
              (scenario.world scenario.myRs [])) as [Hbuilt Hshape].
  destruct Hbuilt as [sts Hsts]; [vm_compute; discriminate |].
  exists sts. destruct (Hshape sts Hsts) as (Hr & Hn & Hns & _).
  repeat split; assumption.
Defined.

Lemma buildStatefulSet_labels_agree_witness :
  ∃ sts,
    value (buildStatefulSet fake.noResources scenario.myRs
             (scenario.world scenario.myRs [])) = inl sts
    ∧ metav1.Labels (appsv1.stsObjectMeta sts)
      = metav1.MatchLabels (appsv1.Selector (appsv1.stsSpec sts))
    ∧ selects (appsv1.Selector (appsv1.stsSpec sts))
        (appsv1.Template (appsv1.stsSpec sts)).
Proof.
  destruct (buildStatefulSet_labels_agree fake.noResources scenario.myRs
              (scenario.world scenario.myRs [])) as [Hbuilt Hlabels].
  destruct Hbuilt as [sts Hsts]; [vm_compute; discriminate |].
  exists sts. destruct (Hlabels sts Hsts) as (Hl & _ & Hsel).
  repeat split; assumption.
Defined.

(** Scenario B: no record for [(ns1, ghost)]; and a read that times out. *)
Lemma Reconcile_read_failure_witness :
  (let r := Reconcile fake.render fake.noResources
              (scenario.requestFor "ns1" "ghost")
              (scenario.world scenario.myRs []) in
   value r = (reconcile.ResultZero, None)
   ∧ reconcile.willRequeue (value r) = false
   ∧ upserted (events r) = [])
  ∧ (let r := Reconcile fake.render fake.noResources
                (scenario.requestFor "ns1" "my-rs")
                (scenario.world scenario.myRs [Some fake.timeout]) in
     value r = (reconcile.ResultZero, Some fake.timeout)
     ∧ reconcile.willRequeue (value r) = true).
Proof.
  split.
  - pose proof (Reconcile_read_failure fake.render fake.noResources
                  (scenario.requestFor "ns1" "ghost")
                  (scenario.world scenario.myRs [])
                  (fake.notFound (types.mkNamespacedName "ns1" "ghost"))
                  (scenario.storeOf scenario.myRs [])) as Hrun.
    cbv zeta in Hrun.
    destruct Hrun as (Hv & Hq & _ & Hu & _); [vm_compute; reflexivity |].
    repeat split; assumption.
  - pose proof (Reconcile_read_failure fake.render fake.noResources
                  (scenario.requestFor "ns1" "my-rs")
                  (scenario.world scenario.myRs [Some fake.timeout])
                  fake.timeout
                  (scenario.storeOf scenario.myRs [])) as Hrun.
    cbv zeta in Hrun.
    destruct Hrun as (Hv & Hq & _); [vm_compute; reflexivity |].
    split; assumption.
Defined.

(** Scenario C: the read succeeds and the upsert of the config map fails. *)
Lemma Reconcile_config_upsert_failure_witness :
  let r := Reconcile fake.render fake.noResources
             (scenario.requestFor "ns1" "my-rs")
             (scenario.world scenario.myRs [None; Some fake.unavailable]) in
  value r = (reconcile.ResultZero, Some fake.unavailable)
  ∧ reconcile.willRequeue (value r) = true
  ∧ Forall (λ e, isWorkloadEvent e = false) (events r).
Proof.
  pose proof (Reconcile_config_upsert_failure fake.render fake.noResources
                (scenario.requestFor "ns1" "my-rs")
                (scenario.world scenario.myRs [None; Some fake.unavailable])
                scenario.myRs
                (corev1.mkConfigMap (metav1.mkObjectMeta "my-rs-config" "ns1" ∅)
                   {[ "automation-config" :=
                        "topology=replica-set;name=my-rs;domain=my-rs-service.ns1.svc.my-rs;version=4.2.0" ]})
                fake.unavailable
                (scenario.storeOf scenario.myRs [Some fake.unavailable])
                (scenario.storeOf scenario.myRs [])) as Hrun.
  cbv zeta in Hrun.
  destruct Hrun as (Hv & Hq & _ & Hw & _);
    [vm_compute; reflexivity .. |].
  repeat split; assumption.
Defined.

(** Scenario D: a desired state with zero members. *)
Lemma Reconcile_build_failure_witness :
  let r := Reconcile fake.render fake.noResources
             (scenario.requestFor "ns1" "my-rs")
             (scenario.world scenario.noMembers []) in
  reconcile.willRequeue (value r) = false
  ∧ upserted (events r)
    = [ ObjConfigMap
          (corev1.mkConfigMap (metav1.mkObjectMeta "my-rs-config" "ns1" ∅)
             {[ "automation-config" :=
                  "topology=replica-set;name=my-rs;domain=my-rs-service.ns1.svc.my-rs;version=4.2.0" ]}) ].
Proof.
  pose proof (Reconcile_build_failure fake.render fake.noResources
                (scenario.requestFor "ns1" "my-rs")
                (scenario.world scenario.noMembers [])
                scenario.noMembers
                (corev1.mkConfigMap (metav1.mkObjectMeta "my-rs-config" "ns1" ∅)
                   {[ "automation-config" :=
                        "topology=replica-set;name=my-rs;domain=my-rs-service.ns1.svc.my-rs;version=4.2.0" ]})
                (scenario.storeOf scenario.noMembers [])
                (fake.mkStore (fake.mongodbs (scenario.storeOf scenario.noMembers []))
                   {[ ("ns1", "my-rs-config") :=
                        corev1.mkConfigMap (metav1.mkObjectMeta "my-rs-config" "ns1" ∅)
                          {[ "automation-config" :=
                               "topology=replica-set;name=my-rs;domain=my-rs-service.ns1.svc.my-rs;version=4.2.0" ]} ]}
                   ∅ [])) as Hrun.
  cbv zeta in Hrun.
  destruct Hrun as [Hfail Hzero]; [vm_compute; reflexivity .. |].
  destruct Hzero as [(err & Herr & _) Hq]; [reflexivity |].
  destruct (Hfail err Herr) as (_ & _ & _ & Hu & _).
  split; assumption.
Defined.

(** Scenario A on the code. *)
Lemma scenarioA_config_map_witness :
  buildAutomationConfigConfigMap fake.render scenario.myRs
    = inl (corev1.mkConfigMap (metav1.mkObjectMeta "my-rs-config" "ns1" ∅)
             {[ "automation-config" :=
                  "topology=replica-set;name=my-rs;domain=my-rs-service.ns1.svc.my-rs;version=4.2.0" ]})
  ∧ automationconfig.acDomain (buildAutomationConfig scenario.myRs)
    ≠ "my-rs-service.ns1.svc.cluster.local".
Proof.
  destruct (scenarioA_config_map fake.render
              "topology=replica-set;name=my-rs;domain=my-rs-service.ns1.svc.my-rs;version=4.2.0")
    as (Hcm & _ & _ & _ & Hne); [vm_compute; reflexivity |].
  split; assumption.
Defined.

(** Two reconciliations of [my-rs], the second against a store whose
    write of the stateful set fails: what both write is the same. *)
Lemma builders_idempotent_witness :
  value (buildStatefulSet fake.noResources scenario.myRs
           (scenario.world scenario.myRs []))
  = value (buildStatefulSet fake.noResources scenario.myRs
             (scenario.world scenario.myRs [None; None; Some fake.unavailable])).
Proof.
  destruct (builders_idempotent fake.render fake.noResources scenario.myRs
              (scenario.world scenario.myRs [])
              (scenario.world scenario.myRs [None; None; Some fake.unavailable])
              (scenario.requestFor "ns1" "my-rs")
              (scenario.requestFor "ns1" "my-rs")
              (scenario.storeOf scenario.myRs [])
              (scenario.storeOf scenario.myRs [None; Some fake.unavailable]))
    as (Hsame & _ & _); [vm_compute; reflexivity .. |].
  exact Hsame.
Defined.

(** * The further properties, run on the in-memory client *)

Lemma getDomain_injective_witness :
  "my-rs-service" = "my-rs-service" ∧ "ns1" = "ns1"
  ∧ (if String.eqb "" "" then "cluster.local" else "")
    = (if String.eqb "cluster.local" "" then "cluster.local" else "cluster.local").
Proof.
  apply (getDomain_injective "my-rs-service" "ns1" ""
           "my-rs-service" "ns1" "cluster.local"); reflexivity.
Defined.

Lemma buildAutomationConfig_domain_witness :
  automationconfig.acDomain (buildAutomationConfig scenario.myRs)
    = "my-rs-service" ++ "." ++ "ns1" ++ ".svc." ++ "my-rs"
  ∧ automationconfig.acName (buildAutomationConfig scenario.myRs) = "my-rs".
Proof.
  apply (buildAutomationConfig_domain scenario.myRs). discriminate.
Defined.

Lemma buildStatefulSet_selectors_overlap_witness :
  selects
    (appsv1.Selector (appsv1.stsSpec (more.statefulSet "agent:1.0")))
    (appsv1.Template (appsv1.stsSpec (more.statefulSet ""))).
Proof.
  destruct (buildStatefulSet_selectors_overlap fake.noResources
              scenario.myRs scenario.myRs
              (scenario.world scenario.myRs [])
              (mkWorld (scenario.storeOf scenario.myRs []) ∅)
              (more.statefulSet "agent:1.0") (more.statefulSet ""))
    as (_ & _ & Hsel); [vm_compute; reflexivity .. |].
  exact Hsel.
Defined.

Lemma buildStatefulSet_unset_image_witness :
  ∃ sts,
    value (buildStatefulSet fake.noResources scenario.myRs
             (mkWorld (scenario.storeOf scenario.myRs []) ∅)) = inl sts
    ∧ corev1.Image
        <$> corev1.Containers
              (corev1.ptSpec (appsv1.Template (appsv1.stsSpec sts)))
      = [""].
Proof.
  apply (buildStatefulSet_unset_image fake.noResources scenario.myRs
           (mkWorld (scenario.storeOf scenario.myRs []) ∅));
    [reflexivity | vm_compute; discriminate].
Defined.

Lemma ensureAutomationConfig_nil_iff_witness :
  value (ensureAutomationConfig fake.reject scenario.myRs
           (scenario.world scenario.myRs []))
  = Some (mkError SerializationError "cannot encode").
Proof.
  pose proof (ensureAutomationConfig_nil_iff fake.reject scenario.myRs
                (scenario.world scenario.myRs [])) as Hrun.
  cbv zeta in Hrun. destruct Hrun as [_ Hfail].
  destruct (Hfail (mkError SerializationError "cannot encode")) as (Hv & _);
    [reflexivity | exact Hv].
Defined.

Lemma Reconcile_writes_in_order_witness :
  upserted
    (events (Reconcile fake.render fake.noResources
               (scenario.requestFor "ns1" "my-rs")
               (scenario.world scenario.myRs [])))
  = [ObjConfigMap more.configMap; ObjStatefulSet (more.statefulSet "agent:1.0")].
Proof.
  pose proof (Reconcile_writes_in_order fake.render fake.noResources
                (scenario.requestFor "ns1" "my-rs")
                (scenario.world scenario.myRs [])
                (more.statefulSet "agent:1.0")) as Hrun.
  cbv zeta in Hrun.
  destruct Hrun as (mdb & cm & s1 & s2 & HGet & Hcm & _ & _ & Hup).
  - apply (list_elem_of_lookup_2 _ 1). vm_compute. reflexivity.
  - rewrite Hup. f_equal. f_equal.
    vm_compute in HGet. injection HGet as <- _.
    vm_compute in Hcm. by injection Hcm as <-.
Defined.

Lemma Reconcile_nil_means_witness :
  ∃ cm,
    upserted
      (events (Reconcile fake.render fake.noResources
                 (scenario.requestFor "ns1" "my-rs")
                 (scenario.world scenario.noMembers [])))
    = [ObjConfigMap cm].
Proof.
  pose proof (Reconcile_nil_means fake.render fake.noResources
                (scenario.requestFor "ns1" "my-rs")
                (scenario.world scenario.noMembers [])) as Hrun.
  cbv zeta in Hrun.
  destruct Hrun as [(err & s1 & HGet & _) | [Hbuild | Hdone]];
    [vm_compute; reflexivity | ..].
  - vm_compute in HGet. discriminate.
  - destruct Hbuild as (_ & _ & cm & _ & _ & _ & _ & _ & _ & Hup & _).
    by exists cm.
  - destruct Hdone as (mdb & s1 & cm & s2 & sts & s3 & HGet & _ & _ & Hsts & _).
    vm_compute in HGet. injection HGet as <- _.
    vm_compute in Hsts. discriminate.
Defined.


Lemma Reconcile_workload_upsert_failure_witness :
  let r := Reconcile fake.render fake.noResources
             (scenario.requestFor "ns1" "my-rs")
             (scenario.world scenario.myRs [None; None; Some fake.unavailable]) in
  value r = (reconcile.ResultZero, Some fake.unavailable)
  ∧ reconcile.willRequeue (value r) = true.
Proof.
  pose proof (Reconcile_workload_upsert_failure fake.render fake.noResources
                (scenario.requestFor "ns1" "my-rs")
                (scenario.world scenario.myRs [None; None; Some fake.unavailable])
                scenario.myRs more.configMap (more.statefulSet "agent:1.0")
                fake.unavailable
                (scenario.storeOf scenario.myRs [None; Some fake.unavailable])
                (more.written true false [Some fake.unavailable])
                (more.written true false [])) as Hrun.
  cbv zeta in Hrun.
  destruct Hrun as (Hv & Hq & _); [vm_compute; reflexivity .. |].
  split; assumption.
Defined.

Lemma Reconcile_encoding_failure_witness :
  let r := Reconcile fake.reject fake.noResources
             (scenario.requestFor "ns1" "my-rs")
             (scenario.world scenario.myRs []) in
  reconcile.willRequeue (value r) = true
  ∧ upserted (events r) = [].
Proof.
  pose proof (Reconcile_encoding_failure fake.reject fake.noResources
                (scenario.requestFor "ns1" "my-rs")
                (scenario.world scenario.myRs [])
                scenario.myRs
                (mkError SerializationError "cannot encode")
                (scenario.storeOf scenario.myRs [])) as Hrun.
  cbv zeta in Hrun.
  destruct Hrun as (_ & Hq & Hev & _); [vm_compute; reflexivity .. |].
  cbv zeta. rewrite Hev. split; [exact Hq | reflexivity].
Defined.

Lemma add_new_failure_witness :
  result (add [Some fakemgr.refused] (newReconciler [Some fakemgr.refused]))
  = Some fakemgr.refused.
Proof.
  destruct (add_new_failure [Some fakemgr.refused] []
              (newReconciler [Some fakemgr.refused]) fakemgr.refused)
    as (Hr & _); [reflexivity | exact Hr].
Defined.

Lemma add_watch_result_witness :
  result (add [None; Some fakemgr.refused]
            (newReconciler [None; Some fakemgr.refused]))
  = Some fakemgr.refused.
Proof.
  destruct (add_watch_result [None; Some fakemgr.refused]
              [Some fakemgr.refused] []
              (newReconciler [None; Some fakemgr.refused])
              "replicaset-controller" (Some fakemgr.refused))
    as (Hr & _); [reflexivity .. | exact Hr].
Defined.

Lemma Add_success_registers_witness :
  ∃ c, nth_error (calls (Add (H := fakemgr.runtime) [])) 1
       = Some (CallWatch c (source.mkKind zeroMongoDB)
                 handler.mkEnqueueRequestForObject).
Proof.
  destruct (Add_success_registers (H := fakemgr.runtime) [])
    as (c & mgr1 & _ & _ & Hcalls); [reflexivity |].
  exists c. rewrite Hcalls. reflexivity.
Defined.
